(** * Main_Asset.py: the IBAPI connector class

    The source file declares one class,

<<
      class IBAPI(EWrapper, EClient):
          def __init__(self):
              EClient.__init__(self, self)
>>

    on top of two classes imported from the [ibapi] package.  This
    development embeds the Python object model the class relies on (object
    identities, instance dictionaries, class namespaces, the C3 method
    resolution order, argument binding, exceptions), takes everything the
    file imports as a parameter, and states the behaviour of construction
    and of attribute lookup on the class. *)

From Stdlib Require Import ZArith List.
From stdpp Require Import base option gmap sets list strings.


(** ** A fragment of the Python object model *)

Module Py.

(** Object identity: [id(o)].  Two references are the same object exactly
    when their locations are equal. *)
Definition loc := positive.

Inductive value :=
  | VNone
  | VBool (b : bool)
  | VInt (z : Z)
  | VStr (s : string)
  | VRef (l : loc).

#[global] Instance value_eq_dec : EqDecision value.
Proof. solve_decision. Defined.

(** An instance: its class ([type(o).__name__]) and its [__dict__]. *)
Record object := Object { o_class : string; o_attrs : gmap string value }.

(** Traffic between the process and the remote gateway. *)
Inductive io_event :=
  | IOConnect (host : string) (port : Z)
  | IOSend (msg : string).

(** What library code can read and write: the heap and the gateway. *)
Record State := MkState { heap : gmap loc object; io : list io_event }.

Inductive arity_error :=
  | UnexpectedKeyword (k : string)
  | MultipleValues (k : string)
  | TooManyPositional (given : nat)
  | MissingArgument (p : string).

Inductive exn :=
  | TypeError (fn : string) (why : arity_error)
  | NotCallable (name : string)
  | InitReturnedValue (cls : string)
  | AttributeError (owner name : string)
  | Raised (cls : string) (args : list value).

Inductive result (A : Type) :=
  | Ok (a : A)
  | Err (e : exn).
Arguments Ok {A} a.
Arguments Err {A} e.

Definition kwargs := list (string * value).

(** A function of the imported library: positional and keyword actuals in,
    an outcome and a new state out. *)
Definition pyfun := list value → kwargs → State → result value * State.

(** Calls of library functions made by the code of this repository or by
    its caller, oldest first: the class whose namespace holds the function,
    the name, and the actuals. *)
Inductive event :=
  | EvCall (cls name : string) (pos : list value) (kw : kwargs).

Record Exec := MkExec { st : State; calls : list event }.

(** The monad the embedded code runs in: state, call trace, exceptions. *)
Definition M (A : Type) := Exec → result A * Exec.

Definition ret {A} (a : A) : M A := λ e, (Ok a, e).
Definition raise {A} (x : exn) : M A := λ e, (Err x, e).
Definition bind {A B} (m : M A) (k : A → M B) : M B :=
  λ e, match m e with
       | (Ok a, e') => k a e'
       | (Err x, e') => (Err x, e')
       end.

(** Invoke a library function, recording the call. *)
Definition call_lib (cls name : string) (f : pyfun) (pos : list value) (kw : kwargs)
  : M value :=
  λ e, let '(r, s') := f pos kw (st e) in
       (r, MkExec s' (calls e ++ [EvCall cls name pos kw])).

(** Class attributes. *)
Inductive attr :=
  | AFun (f : list value → kwargs → M value)
  | AData (v : value).

Record ClassDef := MkClass { c_bases : list string; c_dict : gmap string attr }.

Definition class_table := list (string * ClassDef).

Fixpoint tbl_lookup (tbl : class_table) (c : string) : option ClassDef :=
  match tbl with
  | [] => None
  | (k, d) :: tbl' => if decide (k = c) then Some d else tbl_lookup tbl' c
  end.

(** *** C3 linearisation *)

Definition head_ok (h : string) (seqs : list (list string)) : bool :=
  forallb (λ s, negb (bool_decide (h ∈ tail s))) seqs.

Definition pick_head (seqs : list (list string)) : option string :=
  List.find (λ h, head_ok h seqs) (omap head seqs).

Definition drop_head (h : string) (s : list string) : list string :=
  match s with
  | x :: t => if decide (x = h) then t else s
  | [] => []
  end.

Definition nonempty (s : list string) : bool :=
  match s with [] => false | _ => true end.

Fixpoint c3_merge (fuel : nat) (seqs : list (list string)) : option (list string) :=
  match List.filter nonempty seqs with
  | [] => Some []
  | live =>
      match fuel with
      | O => None
      | S fuel' =>
          h ← pick_head live;
          t ← c3_merge fuel' (drop_head h <$> live);
          Some (h :: t)
      end
  end.

Fixpoint all_some {A} (l : list (option A)) : option (list A) :=
  match l with
  | [] => Some []
  | o :: l' => x ← o; xs ← all_some l'; Some (x :: xs)
  end.

Fixpoint mro_fuel (fuel : nat) (tbl : class_table) (c : string) : option (list string) :=
  match fuel with
  | O => None
  | S fuel' =>
      d ← tbl_lookup tbl c;
      ls ← all_some (mro_fuel fuel' tbl <$> c_bases d);
      let seqs := ls ++ [c_bases d] in
      t ← c3_merge (S (length (concat seqs))) seqs;
      Some (c :: t)
  end.

Definition mro (tbl : class_table) (c : string) : option (list string) :=
  mro_fuel (S (length tbl)) tbl c.

(** The first class along [order] whose namespace binds [n]. *)
Fixpoint first_def (tbl : class_table) (order : list string) (n : string)
  : option (string * attr) :=
  match order with
  | [] => None
  | k :: order' =>
      match tbl_lookup tbl k ≫= (λ d, c_dict d !! n) with
      | Some a => Some (k, a)
      | None => first_def tbl order' n
      end
  end.

(** [getattr(C, n)] for a class [C]: the defining class and the attribute. *)
Definition class_lookup (tbl : class_table) (c n : string) : option (string * attr) :=
  order ← mro tbl c; first_def tbl order n.

(** Calling what an attribute lookup on [owner] produced. *)
Definition call_attr (owner name : string) (a : option (string * attr))
    (pos : list value) (kw : kwargs) : M value :=
  match a with
  | Some (_, AFun f) => f pos kw
  | Some (_, AData _) => raise (NotCallable name)
  | None => raise (AttributeError owner name)
  end.

(** *** Binding actuals to the parameters of a [def] *)

Fixpoint bind_keywords (fn : string) (params : list string)
    (bound : list (string * value)) (kw : kwargs) : result (list (string * value)) :=
  match kw with
  | [] => Ok bound
  | (k, v) :: kw' =>
      if decide (k ∈ params) then
        if decide (k ∈ bound.*1) then Err (TypeError fn (MultipleValues k))
        else bind_keywords fn params (bound ++ [(k, v)]) kw'
      else Err (TypeError fn (UnexpectedKeyword k))
  end.

(** A function with positional-or-keyword parameters only, none of which
    has a default, and neither [*args] nor [**kwargs]. *)
Definition bind_params (fn : string) (params : list string)
    (pos : list value) (kw : kwargs) : result (list (string * value)) :=
  match bind_keywords fn params (zip params pos) kw with
  | Err x => Err x
  | Ok bound =>
      if decide (length params < length pos)%nat
      then Err (TypeError fn (TooManyPositional (length pos)))
      else match List.find (λ p, bool_decide (p ∉ bound.*1)) params with
           | Some p => Err (TypeError fn (MissingArgument p))
           | None => Ok bound
           end
  end.

Fixpoint local (env : list (string * value)) (x : string) : value :=
  match env with
  | [] => VNone
  | (k, v) :: env' => if decide (k = x) then v else local env' x
  end.

Definition def (fn : string) (params : list string)
    (body : list (string * value) → M value) : list value → kwargs → M value :=
  λ pos kw,
    match bind_params fn params pos kw with
    | Ok env => body env
    | Err x => raise x
    end.

(** [object.__new__(cls)]: a new instance with an empty [__dict__], at an
    identity no live object has. *)
Definition new_loc (s : State) : loc := fresh (dom (heap s)).

Definition alloc (cls : string) (s : State) : State :=
  MkState (<[new_loc s := Object cls ∅]> (heap s)) (io s).

Definition object_new (cls : string) : M loc :=
  λ e, (Ok (new_loc (st e)), MkExec (alloc cls (st e)) (calls e)).

End Py.

Import Py.

Notation "'let!' x ':=' m 'in' k" := (bind m (λ x, k))
  (at level 10, x name, m at level 100, k at level 200, only parsing).

(** ** What the file imports

    [from ibapi.client import EClient] and [from ibapi.wrapper import
    EWrapper] bring in code that is not part of this repository.  It is a
    parameter of the development: the namespaces of the two classes (and of
    [object], their base), the initialiser [EClient.__init__], which the
    source calls with two positional arguments, and the two observations of
    an [EClient] that the properties below talk about.

    A library function is a function of its actuals and of the state; what
    it does inside, including any call it makes on its own, is part of that
    function.  The two classes are ordinary classes: they derive from
    [object] only and customise neither [__new__] nor the metaclass. *)

Module Ibapi.

Inductive libattr :=
  | LFun (f : pyfun)
  | LData (v : value).

Record Env := MkEnv {
  (** namespace of [object] *)
  object_dict : gmap string libattr;
  (** namespace of [EWrapper], the callback sink *)
  EWrapper_dict : gmap string libattr;
  (** [EClient.__init__(self, wrapper)] *)
  EClient_init : pyfun;
  (** the rest of the namespace of [EClient], the requester *)
  EClient_dict : gmap string libattr;
  (** the callback target an [EClient] has registered, if any *)
  callback_target : State → loc → option value;
  (** whether an [EClient] holds a connection to a gateway *)
  is_connected : State → loc → bool
}.

Definition lift_attr (cls n : string) (a : libattr) : attr :=
  match a with
  | LFun f => AFun (call_lib cls n f)
  | LData v => AData v
  end.

Definition lift_dict (cls : string) (d : gmap string libattr) : gmap string attr :=
  map_imap (λ n a, Some (lift_attr cls n a)) d.

Definition EClient_namespace (env : Env) : gmap string attr :=
  <["__init__" := AFun (call_lib "EClient" "__init__" (EClient_init env))]>
    (lift_dict "EClient" (EClient_dict env)).

(** [object], [class EWrapper:] and [class EClient(object):]. *)
Definition lib_table (env : Env) : class_table :=
  [ ("object", MkClass [] (lift_dict "object" (object_dict env)));
    ("EWrapper", MkClass ["object"] (lift_dict "EWrapper" (EWrapper_dict env)));
    ("EClient", MkClass ["object"] (EClient_namespace env)) ].

(** What the bases of [class IBAPI(EWrapper, EClient)] resolve a name to on
    their own: [EWrapper] first, then [EClient], then [object]. *)
Definition lib_resolve (env : Env) (n : string) : option (string * libattr) :=
  match EWrapper_dict env !! n with
  | Some a => Some ("EWrapper", a)
  | None =>
      match EClient_dict env !! n with
      | Some a => Some ("EClient", a)
      | None => (λ a, ("object", a)) <$> object_dict env !! n
      end
  end.

(** The same imports with another namespace for [EWrapper]. *)
Definition with_EWrapper (d : gmap string libattr) (env : Env) : Env :=
  MkEnv (object_dict env) d (EClient_init env) (EClient_dict env)
        (callback_target env) (is_connected env).

(** *** Contracts of the library that some properties depend on *)

(** The initialiser registers its second argument as the callback target
    of its first. *)
Definition binds_target (env : Env) : Prop :=
  ∀ self w s r s',
    EClient_init env [VRef self; w] [] s = (Ok r, s') →
    callback_target env s' self = Some w.

(** The initialiser leaves the client disconnected and does not talk to
    the gateway. *)
Definition init_disconnected (env : Env) : Prop :=
  ∀ self w s r s',
    EClient_init env [VRef self; w] [] s = (Ok r, s') →
    is_connected env s' self = false ∧ io s' = io s.

End Ibapi.

Import Ibapi.

(** ** Main_Asset.py *)

Definition module_name : string := "Ecosystem.Connector.Main_Asset".

Definition IBAPI_doc : string := "
    The main class for interacting with the IBKR API
    
                ----- EClient ------> 
    PYTHON CODE                       TWS API
                <---- EWrapper ------
    
    ".

(** [def __init__(self): EClient.__init__(self, self)] *)
Definition IBAPI_init (env : Env) : list value → kwargs → M value :=
  def "IBAPI.__init__" ["self"] (λ locals,
    let self := local locals "self" in
    let! _ := call_attr "EClient" "__init__"
                (class_lookup (lib_table env) "EClient" "__init__") [self; self] [] in
    ret VNone).

(** The namespace of the class once it is created: the module name, the
    docstring and the one function of the class body.  ([__qualname__] is
    taken out of the namespace when the class is created; it is kept on the
    type and is not an attribute that instances see.) *)
Definition IBAPI_dict (env : Env) : gmap string attr :=
  <["__module__" := AData (VStr module_name)]>
  (<["__doc__" := AData (VStr IBAPI_doc)]>
  (<["__init__" := AFun (IBAPI_init env)]> ∅)).

(** [class IBAPI(EWrapper, EClient)] *)
Definition IBAPI_class (env : Env) : ClassDef :=
  MkClass ["EWrapper"; "EClient"] (IBAPI_dict env).

Definition classes (env : Env) : class_table :=
  ("IBAPI", IBAPI_class env) :: lib_table env.

(** Calling a class: [object.__new__], then the [__init__] found along the
    MRO, which has to return [None]. *)
Definition instantiate (tbl : class_table) (cls : string)
    (pos : list value) (kw : kwargs) : M value :=
  let! self := object_new cls in
  let! r := call_attr cls "__init__" (class_lookup tbl cls "__init__")
              (VRef self :: pos) kw in
  if decide (r = VNone) then ret (VRef self) else raise (InitReturnedValue cls).

(** Calling [IBAPI] with positional actuals [pos] and keyword actuals [kw];
    the spec's [construct()] is [construct env [] []]. *)
Definition construct (env : Env) (pos : list value) (kw : kwargs) : M value :=
  instantiate (classes env) "IBAPI" pos kw.

(** Calling the attribute [n] of the instance at [l]: the instance dictionary
    shadows the class; a function found on the class is called with the
    instance prepended. *)
Definition invoke (tbl : class_table) (l : loc) (n : string)
    (pos : list value) (kw : kwargs) : M value :=
  λ e, match heap (st e) !! l with
       | None => raise (AttributeError "" n) e
       | Some o =>
           match o_attrs o !! n with
           | Some _ => raise (NotCallable n) e
           | None =>
               call_attr (o_class o) n (class_lookup tbl (o_class o) n)
                 (VRef l :: pos) kw e
           end
       end.

(** ** Programs that use the connector

    A caller holds the instances that [IBAPI(...)] returned to it and can
    construct further ones or call a method on one it holds. *)

Inductive action :=
  | ActConstruct (pos : list value) (kw : kwargs)
  | ActInvoke (i : nat) (n : string) (pos : list value) (kw : kwargs).

Record Config := MkConfig { exec : Exec; handles : list loc }.

Definition perform (env : Env) (c : Config) (a : action) : Config :=
  match a with
  | ActConstruct pos kw =>
      match construct env pos kw (exec c) with
      | (Ok (VRef l), e') => MkConfig e' (handles c ++ [l])
      | (_, e') => MkConfig e' (handles c)
      end
  | ActInvoke i n pos kw =>
      match handles c !! i with
      | Some l => MkConfig (invoke (classes env) l n pos kw (exec c)).2 (handles c)
      | None => c
      end
  end.

Definition run (env : Env) (c : Config) (acts : list action) : Config :=
  foldl (perform env) c acts.

(** A program starts with no instance in hand and no call made. *)
Definition start (s : State) : Config := MkConfig (MkExec s []) [].

Definition reachable (env : Env) (c : Config) : Prop :=
  ∃ s acts, c = run env (start s) acts.

(** A call of a method other than [__init__] on the instance [l]. *)
Definition is_request (l : loc) (ev : event) : Prop :=
  ∃ cls n pos kw, ev = EvCall cls n (VRef l :: pos) kw ∧ n ≠ "__init__".

(** The call that binds [l] as its own callback target. *)
Definition binding (l : loc) : event :=
  EvCall "EClient" "__init__" [VRef l; VRef l] [].


(** The binding of [l] occurs in [tr] before position [i]. *)
Definition bound_before (tr : list event) (i : nat) (l : loc) : Prop :=
  ∃ j, j < i ∧ tr !! j = Some (binding l).

(** Every request in the trace comes after the binding of its instance. *)
Definition requests_follow_binding (tr : list event) : Prop :=
  ∀ i ev l, tr !! i = Some ev → is_request l ev → bound_before tr i l.

(** Every instance the caller holds has been bound. *)
Definition handles_bound (c : Config) : Prop :=
  ∀ l, l ∈ handles c → bound_before (calls (exec c)) (length (calls (exec c))) l.

(** ** A sample of the imports

    A small instance of [Env] on which the definitions can be run: an
    initialiser that stores its arguments the way a requester would, one
    request, one operation that fails, and a callback sink whose own
    initialiser would leave a mark if it ran. *)

Module Sample.

Definition store (l : loc) (fields : list (string * value)) (s : State) : option State :=
  o ← heap s !! l;
  Some (MkState
          (<[l := Object (o_class o)
                    (foldl (λ m kv, <[kv.1 := kv.2]> m) (o_attrs o) fields)]> (heap s))
          (io s)).

Definition DISCONNECTED : Z := 0.
Definition CONNECTED : Z := 2.

Definition client_init : pyfun := λ pos kw s,
  match pos, kw with
  | [VRef self; w], [] =>
      match store self [("wrapper", w); ("conn", VNone);
                        ("connState", VInt DISCONNECTED)] s with
      | Some s' => (Ok VNone, s')
      | None => (Err (Raised "SystemError" []), s)
      end
  | _, _ => (Err (Raised "TypeError" []), s)
  end.

Definition reqCurrentTime : pyfun := λ pos kw s,
  (Ok VNone, MkState (heap s) (io s ++ [IOSend "reqCurrentTime"])).

Definition connect : pyfun := λ pos kw s,
  (Err (Raised "ConnectionRefusedError" [VInt 111]), s).

Definition wrapper_init : pyfun := λ pos kw s,
  match pos with
  | [VRef self] =>
      match store self [("sink_ready", VBool true)] s with
      | Some s' => (Ok VNone, s')
      | None => (Err (Raised "SystemError" []), s)
      end
  | _ => (Err (Raised "TypeError" []), s)
  end.

Definition currentTime : pyfun := λ pos kw s, (Ok VNone, s).

Definition field (n : string) (s : State) (l : loc) : option value :=
  o ← heap s !! l; o_attrs o !! n.

Definition env : Env :=
  {| object_dict := ∅;
     EWrapper_dict := <["__init__" := LFun wrapper_init]>
                        (<["currentTime" := LFun currentTime]> ∅);
     EClient_init := client_init;
     EClient_dict := <["reqCurrentTime" := LFun reqCurrentTime]>
                       (<["connect" := LFun connect]> ∅);
     callback_target := field "wrapper";
     is_connected := λ s l,
       bool_decide (field "connState" s l = Some (VInt CONNECTED)) |}.

(** The same library with an initialiser that fails. *)
Definition refused : exn := Raised "OSError" [VStr "client setup failed"].

Definition failing_env : Env :=
  {| object_dict := ∅;
     EWrapper_dict := EWrapper_dict env;
     EClient_init := λ pos kw s, (Err refused, s);
     EClient_dict := EClient_dict env;
     callback_target := callback_target env;
     is_connected := is_connected env |}.

(** A library in which both bases bind the name [error]: the sink as a
    callback, the requester as an operation that fails. *)
Definition clash_env : Env :=
  {| object_dict := ∅;
     EWrapper_dict := <["error" := LFun currentTime]> (EWrapper_dict env);
     EClient_init := client_init;
     EClient_dict := <["error" := LFun connect]> (EClient_dict env);
     callback_target := callback_target env;
     is_connected := is_connected env |}.

Definition s0 : State := MkState ∅ [].
Definition e0 : Exec := MkExec s0 [].

(** After one construction. *)
Definition e1 : Exec := (construct env [] [] e0).2.

(** A caller that constructs a connector and asks for the time. *)
Definition session : Config :=
  run env (start s0) [ActConstruct [] []; ActInvoke 0 "reqCurrentTime" [] []].

End Sample.

(** ** Method resolution on the classes of the file *)

Section Resolution.
Context (env : Env).

Lemma mro_IBAPI :
  mro (classes env) "IBAPI" = Some ["IBAPI"; "EWrapper"; "EClient"; "object"].
Proof. reflexivity. Qed.

Lemma mro_EClient : mro (lib_table env) "EClient" = Some ["EClient"; "object"].
Proof. reflexivity. Qed.

Lemma IBAPI_dict_init : IBAPI_dict env !! "__init__" = Some (AFun (IBAPI_init env)).
Proof. unfold IBAPI_dict. by simplify_map_eq. Qed.

Lemma IBAPI_dict_fun n f :
  IBAPI_dict env !! n = Some (AFun f) → n = "__init__" ∧ f = IBAPI_init env.
Proof.
  unfold IBAPI_dict. intros H.
  repeat (apply lookup_insert_Some in H as [[<- H] | [_ H]]; [by simplify_eq |]).
  by rewrite lookup_empty in H.
Qed.

Lemma lift_dict_lookup cls d n :
  lift_dict cls d !! n = lift_attr cls n <$> d !! n.
Proof. unfold lift_dict. rewrite map_lookup_imap. by destruct (d !! n). Qed.

Lemma lift_dict_fun cls d n f :
  lift_dict cls d !! n = Some (AFun f) →
  ∃ g, d !! n = Some (LFun g) ∧ f = call_lib cls n g.
Proof.
  rewrite lift_dict_lookup. destruct (d !! n) as [[g | v] |]; simpl; intros H;
    simplify_eq. eauto.
Qed.

Lemma EClient_namespace_fun n f :
  EClient_namespace env !! n = Some (AFun f) → ∃ g, f = call_lib "EClient" n g.
Proof.
  unfold EClient_namespace. intros H.
  apply lookup_insert_Some in H as [[<- H] | [_ H]].
  - simplify_eq. eauto.
  - apply lift_dict_fun in H as (g & _ & ->). eauto.
Qed.

Lemma lookup_EClient_init :
  class_lookup (lib_table env) "EClient" "__init__"
  = Some ("EClient", AFun (call_lib "EClient" "__init__" (EClient_init env))).
Proof.
  unfold class_lookup. rewrite mro_EClient. simpl.
  unfold EClient_namespace. by rewrite lookup_insert_eq.
Qed.

Lemma lookup_IBAPI_init :
  class_lookup (classes env) "IBAPI" "__init__" = Some ("IBAPI", AFun (IBAPI_init env)).
Proof.
  unfold class_lookup. rewrite mro_IBAPI. simpl. by rewrite IBAPI_dict_init.
Qed.
End Resolution.

(** ** Argument binding for [def __init__(self)] *)

Lemma bind_self fn v pos kw :
  bind_params fn ["self"] (v :: pos) kw =
  match kw with
  | (k, _) :: _ =>
      Err (TypeError fn (if decide (k = "self") then MultipleValues k
                         else UnexpectedKeyword k))
  | [] =>
      match pos with
      | [] => Ok [("self", v)]
      | _ :: _ => Err (TypeError fn (TooManyPositional (S (length pos))))
      end
  end.
Proof.
  unfold bind_params. destruct kw as [| [k x] kw]; simpl.
  - by destruct pos.
  - destruct (decide (k ∈ ["self"])) as [Hin | Hout].
    + apply list_elem_of_singleton in Hin. by rewrite decide_True.
    + rewrite list_elem_of_singleton in Hout. by rewrite decide_False.
Qed.

Lemma bind_self_Ok fn v pos kw locals :
  bind_params fn ["self"] (v :: pos) kw = Ok locals →
  pos = [] ∧ kw = [] ∧ locals = [("self", v)].
Proof.
  rewrite bind_self. destruct kw as [| [k x] kw]; [| done].
  destruct pos; [| done]. by intros [= <-].
Qed.

Lemma bind_self_Err fn v pos kw :
  pos ≠ [] ∨ kw ≠ [] →
  ∃ why, bind_params fn ["self"] (v :: pos) kw = Err (TypeError fn why).
Proof.
  rewrite bind_self. intros H. destruct kw as [| [k x] kw]; [| eauto].
  destruct pos; [| eauto]. by destruct H.
Qed.

(** ** The constructor, unfolded *)

Section Construction.
Context (env : Env).

(** The body of [__init__] on a well-formed call: one call of the
    library initialiser with the instance in both positions. *)
Lemma IBAPI_init_body v e :
  IBAPI_init env [v] [] e =
  (let! _ := call_lib "EClient" "__init__" (EClient_init env) [v; v] [] in
   ret VNone) e.
Proof.
  unfold IBAPI_init, def. rewrite bind_self. simpl.
  by rewrite lookup_EClient_init.
Qed.

Lemma IBAPI_init_rejects v pos kw e :
  pos ≠ [] ∨ kw ≠ [] →
  ∃ why, IBAPI_init env (v :: pos) kw e = (Err (TypeError "IBAPI.__init__" why), e).
Proof.
  intros H. destruct (bind_self_Err "IBAPI.__init__" v pos kw H) as [why Hw].
  exists why. unfold IBAPI_init, def. by rewrite Hw.
Qed.

Lemma construct_unfold pos kw e :
  construct env pos kw e =
  (let! r := IBAPI_init env (VRef (new_loc (st e)) :: pos) kw in
   if decide (r = VNone) then ret (VRef (new_loc (st e)))
   else raise (InitReturnedValue "IBAPI"))
    (MkExec (alloc "IBAPI" (st e)) (calls e)).
Proof.
  unfold construct, instantiate. by rewrite lookup_IBAPI_init.
Qed.

Lemma construct_ok e r s' :
  EClient_init env [VRef (new_loc (st e)); VRef (new_loc (st e))] []
    (alloc "IBAPI" (st e)) = (Ok r, s') →
  construct env [] [] e
  = (Ok (VRef (new_loc (st e))),
     MkExec s' (calls e ++ [binding (new_loc (st e))])).
Proof.
  intros H. rewrite construct_unfold. unfold bind at 1.
  rewrite IBAPI_init_body. unfold bind, call_lib, ret. simpl. by rewrite H.
Qed.

Lemma construct_err e x s' :
  EClient_init env [VRef (new_loc (st e)); VRef (new_loc (st e))] []
    (alloc "IBAPI" (st e)) = (Err x, s') →
  construct env [] [] e
  = (Err x, MkExec s' (calls e ++ [binding (new_loc (st e))])).
Proof.
  intros H. rewrite construct_unfold. unfold bind at 1.
  rewrite IBAPI_init_body. unfold bind, call_lib, ret. simpl. by rewrite H.
Qed.

Lemma construct_rejects pos kw e :
  pos ≠ [] ∨ kw ≠ [] →
  ∃ why, construct env pos kw e
         = (Err (TypeError "IBAPI.__init__" why),
            MkExec (alloc "IBAPI" (st e)) (calls e)).
Proof.
  intros H. rewrite construct_unfold. unfold bind.
  destruct (IBAPI_init_rejects (VRef (new_loc (st e))) pos kw
              (MkExec (alloc "IBAPI" (st e)) (calls e)) H) as [why ->].
  eauto.
Qed.

(** Whatever a successful construction returned, it is the new object,
    and the state is the one the library initialiser produced. *)
Lemma construct_Ok_inv pos kw e v e' :
  construct env pos kw e = (Ok v, e') →
  pos = [] ∧ kw = [] ∧ v = VRef (new_loc (st e)) ∧
  calls e' = calls e ++ [binding (new_loc (st e))] ∧
  ∃ r, EClient_init env [VRef (new_loc (st e)); VRef (new_loc (st e))] []
         (alloc "IBAPI" (st e)) = (Ok r, st e').
Proof.
  intros H.
  destruct (decide (pos = [])) as [-> |]; last first.
  { destruct (construct_rejects pos kw e) as [why Hw]; [by left | congruence]. }
  destruct (decide (kw = [])) as [-> |]; last first.
  { destruct (construct_rejects [] kw e) as [why Hw]; [by right | congruence]. }
  destruct (EClient_init env [VRef (new_loc (st e)); VRef (new_loc (st e))] []
              (alloc "IBAPI" (st e))) as [[r | x] s'] eqn:Hinit.
  - rewrite (construct_ok _ _ _ Hinit) in H. simplify_eq. simpl. eauto 10.
  - rewrite (construct_err _ _ _ Hinit) in H. congruence.
Qed.

Lemma new_loc_fresh s : heap s !! new_loc s = None.
Proof.
  unfold new_loc. apply (not_elem_of_dom (D := gset loc)). apply is_fresh.
Qed.
End Construction.

(** ** Attributes reached through the class *)

Section Inheritance.
Context (env : Env).

(** A name the class body does not bind resolves along the bases. *)
Lemma class_lookup_inherited n :
  IBAPI_dict env !! n = None →
  class_lookup (classes env) "IBAPI" n
  = (λ ca, (ca.1, lift_attr ca.1 n ca.2)) <$> lib_resolve env n.
Proof.
  intros Hown. unfold class_lookup. rewrite mro_IBAPI. simpl. rewrite Hown.
  assert (n ≠ "__init__") as Hn.
  { intros ->. by rewrite (IBAPI_dict_init env) in Hown. }
  unfold EClient_namespace. rewrite lookup_insert_ne by done.
  rewrite !lift_dict_lookup. unfold lib_resolve.
  destruct (EWrapper_dict env !! n); [done |].
  destruct (EClient_dict env !! n); [done |].
  by destruct (object_dict env !! n).
Qed.

(** Every function in the class table is the source's [__init__] or a
    function of the library under its own name. *)
Lemma class_dict_fun k d n f :
  tbl_lookup (classes env) k = Some d →
  c_dict d !! n = Some (AFun f) →
  (n = "__init__" ∧ f = IBAPI_init env) ∨ ∃ g, f = call_lib k n g.
Proof.
  unfold classes, lib_table. simpl. intros Hk Hn.
  repeat case_decide; simplify_eq; simpl in Hn.
  - left. by apply IBAPI_dict_fun.
  - right. apply lift_dict_fun in Hn as (g & _ & ->). eauto.
  - right. apply lift_dict_fun in Hn as (g & _ & ->). eauto.
  - right. by apply (EClient_namespace_fun env).
Qed.

Lemma first_def_fun order n c f :
  first_def (classes env) order n = Some (c, AFun f) →
  (n = "__init__" ∧ f = IBAPI_init env) ∨ ∃ g, f = call_lib c n g.
Proof.
  induction order as [| k order IH]; cbn [first_def]; [done |].
  destruct (tbl_lookup (classes env) k ≫= (λ d, c_dict d !! n)) as [a |] eqn:Hka;
    [| exact IH].
  intros [= -> ->]. apply bind_Some in Hka as (d & Hk & Hn).
  eapply class_dict_fun; eauto.
Qed.

(** A method call on an instance of [IBAPI] whose name the class body
    does not bind runs the library's function, and nothing else. *)
Lemma invoke_inherited l o n c g pos kw e :
  heap (st e) !! l = Some o →
  o_class o = "IBAPI" →
  o_attrs o !! n = None →
  IBAPI_dict env !! n = None →
  lib_resolve env n = Some (c, LFun g) →
  invoke (classes env) l n pos kw e = call_lib c n g (VRef l :: pos) kw e.
Proof.
  intros Hl Hc Ha Hown Hres. unfold invoke. rewrite Hl, Ha, Hc.
  by rewrite (class_lookup_inherited _ Hown), Hres.
Qed.

(** The calls a method invocation adds to the trace. *)
Lemma invoke_calls l n pos kw e :
  calls (invoke (classes env) l n pos kw e).2 = calls e
  ∨ (∃ c, calls (invoke (classes env) l n pos kw e).2
          = calls e ++ [EvCall c n (VRef l :: pos) kw])
  ∨ (n = "__init__"
     ∧ calls (invoke (classes env) l n pos kw e).2 = calls e ++ [binding l]).
Proof.
  unfold invoke. destruct (heap (st e) !! l) as [o |]; [| by left].
  destruct (o_attrs o !! n); [by left |].
  unfold class_lookup.
  destruct (mro (classes env) (o_class o)) as [order |]; [| by left]. simpl.
  destruct (first_def (classes env) order n) as [[c [f | v]] |] eqn:Hf;
    [| by left | by left].
  apply first_def_fun in Hf as [[-> ->] | [g ->]]; simpl.
  - destruct (decide (pos = [] ∧ kw = [])) as [[-> ->] | Hne].
    + right; right. split; [done |]. rewrite IBAPI_init_body.
      unfold bind, call_lib, ret, binding. simpl.
      by destruct (EClient_init env _ _ _) as [[? | ?] ?].
    + left. destruct (IBAPI_init_rejects env (VRef l) pos kw e) as [why ->];
        [| done].
      destruct pos; [| by left]. destruct kw; [| by right]. by destruct Hne.
  - right; left. exists c. unfold call_lib.
    by destruct (g _ _ _).
Qed.

Lemma construct_calls pos kw e :
  calls (construct env pos kw e).2 = calls e
  ∨ calls (construct env pos kw e).2 = calls e ++ [binding (new_loc (st e))].
Proof.
  destruct (decide (pos = [] ∧ kw = [])) as [[-> ->] | Hne].
  - right.
    destruct (EClient_init env [VRef (new_loc (st e)); VRef (new_loc (st e))] []
                (alloc "IBAPI" (st e))) as [[r | x] s'] eqn:Hinit.
    + by rewrite (construct_ok _ _ _ _ Hinit).
    + by rewrite (construct_err _ _ _ _ Hinit).
  - left. destruct (construct_rejects env pos kw e) as [why ->]; [| done].
    destruct pos; [| by left]. destruct kw; [| by right]. by destruct Hne.
Qed.
End Inheritance.

(** ** Runs of a caller *)

Lemma bound_before_app tr tr' i i' l :
  bound_before tr i l → i ≤ i' → bound_before (tr ++ tr') i' l.
Proof.
  intros (j & Hj & Hb) Hle. exists j. split; [lia |].
  by apply lookup_app_l_Some.
Qed.

Lemma bound_before_last tr l :
  bound_before (tr ++ [binding l]) (length (tr ++ [binding l])) l.
Proof.
  exists (length tr). split; [rewrite length_app; simpl; lia |].
  by rewrite lookup_app_r, Nat.sub_diag.
Qed.

Lemma binding_not_request l l' : ¬ is_request l' (binding l).
Proof. intros (cls & n & pos & kw & Heq & Hn). unfold binding in Heq. congruence. Qed.

Lemma requests_follow_binding_snoc tr ev :
  requests_follow_binding tr →
  (∀ l, is_request l ev → bound_before tr (length tr) l) →
  requests_follow_binding (tr ++ [ev]).
Proof.
  intros Htr Hev i ev' l Hi Hreq.
  apply lookup_app_Some in Hi as [Hi | [Hge Hi]].
  - destruct (Htr i ev' l Hi Hreq) as (j & Hj & Hb).
    exists j. split; [done |]. by apply lookup_app_l_Some.
  - destruct (i - length tr) as [| k] eqn:Hk; simpl in Hi; [| done].
    injection Hi as <-. destruct (Hev l Hreq) as (j & Hj & Hb).
    exists j. split; [lia |]. by apply lookup_app_l_Some.
Qed.

Section Runs.
Context (env : Env).

Lemma perform_inv c a :
  handles_bound c ∧ requests_follow_binding (calls (exec c)) →
  handles_bound (perform env c a)
  ∧ requests_follow_binding (calls (exec (perform env c a))).
Proof.
  intros [Hh Hr]. unfold handles_bound in *.
  destruct a as [pos kw | i n pos kw]; simpl.
  - destruct (construct env pos kw (exec c)) as [[v | x] e'] eqn:Hc.
    + destruct (construct_Ok_inv env _ _ _ _ _ Hc) as (_ & _ & -> & Hcalls & _).
      simpl. rewrite Hcalls. split.
      * intros l [Hl | Hl]%elem_of_app.
        -- eapply bound_before_app; [by apply Hh |]. rewrite length_app. lia.
        -- apply list_elem_of_singleton in Hl as ->. apply bound_before_last.
      * apply requests_follow_binding_snoc; [done |].
        intros l Hreq. by apply binding_not_request in Hreq.
    + pose proof (construct_calls env pos kw (exec c)) as Hcalls.
      rewrite Hc in Hcalls. simpl in Hcalls. simpl.
      destruct Hcalls as [-> | ->]; [done |]. split.
      * intros l Hl. eapply bound_before_app; [by apply Hh |].
        rewrite length_app. lia.
      * apply requests_follow_binding_snoc; [done |].
        intros l Hreq. by apply binding_not_request in Hreq.
  - destruct (handles c !! i) as [l |] eqn:Hi; [| done]. simpl.
    assert (l ∈ handles c) as Hl by (by eapply list_elem_of_lookup_2).
    destruct (invoke_calls env l n pos kw (exec c)) as [-> | [[cls ->] | [_ ->]]].
    + done.
    + split.
      * intros l' Hl'. eapply bound_before_app; [by apply Hh |].
        rewrite length_app. lia.
      * apply requests_follow_binding_snoc; [done |].
        intros l' (cls' & n' & pos' & kw' & Heq & _).
        injection Heq as _ _ <- _. by apply Hh.
    + split.
      * intros l' Hl'. eapply bound_before_app; [by apply Hh |].
        rewrite length_app. lia.
      * apply requests_follow_binding_snoc; [done |].
        intros l' Hreq. by apply binding_not_request in Hreq.
Qed.

Lemma run_inv acts c :
  handles_bound c ∧ requests_follow_binding (calls (exec c)) →
  handles_bound (run env c acts)
  ∧ requests_follow_binding (calls (exec (run env c acts))).
Proof.
  revert c. induction acts as [| a acts IH]; intros c Hc; [done |].
  simpl. apply IH. by apply perform_inv.
Qed.

Lemma start_inv s :
  handles_bound (start s) ∧ requests_follow_binding (calls (exec (start s))).
Proof.
  split.
  - intros l Hl. simpl in Hl. by apply elem_of_nil in Hl.
  - intros i ev l Hi. simpl in Hi. by rewrite lookup_nil in Hi.
Qed.
End Runs.

(** ** The sample meets the contracts *)

Lemma sample_binds_target : binds_target Sample.env.
Proof.
  intros self w s r s' H. simpl in H. unfold Sample.client_init, Sample.store in H.
  destruct (heap s !! self) as [o |] eqn:Ho; simpl in H; [| done].
  injection H as _ <-. simpl. unfold Sample.field. simpl.
  rewrite lookup_insert_eq. simpl. by simplify_map_eq.
Qed.

Lemma sample_init_disconnected : init_disconnected Sample.env.
Proof.
  intros self w s r s' H. simpl in H. unfold Sample.client_init, Sample.store in H.
  destruct (heap s !! self) as [o |] eqn:Ho; simpl in H; [| done].
  injection H as _ <-. simpl. split; [| done]. unfold Sample.field. simpl.
  rewrite lookup_insert_eq. simpl. by simplify_map_eq.
Qed.

(** ** Properties of the connector *)

(** Case analysis on what the library's initialiser does on the object
    that [IBAPI()] allocates in [e]. *)
Ltac init_cases env e :=
  let r := fresh "r" in
  let x := fresh "x" in
  let s' := fresh "s'" in
  destruct (EClient_init env [VRef (new_loc (st e)); VRef (new_loc (st e))] []
              (alloc "IBAPI" (st e))) as [[r | x] s'] eqn:Hinit.

(** [Hi : (tr ++ [ev]) !! i = Some ev'] with [length tr ≤ i] in the
    context: the entry is the added one. *)
Ltac added_call Hi :=
  apply lookup_app_Some in Hi as [Hi | [_ Hi]];
  [ apply lookup_lt_Some in Hi; lia
  | match type of Hi with
    | [_] !! ?k = _ => destruct k; simpl in Hi; [| done]
    end ].

(** Claim C1 (binding invariant).  Whenever [IBAPI()] returns, it returns
    the object it has just created, and the one call it has made is
    [EClient.__init__] with that object both as the instance and as the
    wrapper.  The initialiser registering its second argument as callback
    target, the callback target registered for the new connector is the
    connector itself, by identity. *)
Theorem construct_binds_self env e v e' :
  construct env [] [] e = (Ok v, e') →
  ∃ l, v = VRef l
       ∧ heap (st e) !! l = None
       ∧ calls e' = calls e ++ [EvCall "EClient" "__init__" [VRef l; VRef l] []]
       ∧ (binds_target env → callback_target env (st e') l = Some (VRef l)).
Proof.
  intros Hc.
  destruct (construct_Ok_inv env _ _ _ _ _ Hc) as (_ & _ & -> & Hcalls & r & Hinit).
  exists (new_loc (st e)). repeat split.
  - apply new_loc_fresh.
  - done.
  - intros Hbind. by eapply Hbind.
Qed.

Lemma construct_binds_self_witness :
  construct Sample.env [] [] Sample.e0 = (Ok (VRef 1%positive), Sample.e1)
  ∧ binds_target Sample.env
  ∧ callback_target Sample.env (st Sample.e1) 1%positive = Some (VRef 1%positive).
Proof.
  split; [reflexivity |]. split; [exact sample_binds_target |].
  destruct (construct_binds_self Sample.env Sample.e0 (VRef 1%positive) Sample.e1
              eq_refl) as (l & Hl & _ & _ & Hbound).
  injection Hl as <-. exact (Hbound sample_binds_target).
Defined.

(** Claim C2 (construction succeeds quietly).  If the library's
    initialiser returns normally on the new object, then [IBAPI()] raises
    nothing and returns that object, which is not [None]; the only call it
    makes is the initialiser (no request method is called); the state it
    leaves is the state the initialiser left, so nothing reaches the
    gateway that the initialiser did not send, and nothing at all when the
    initialiser is silent. *)
Theorem construct_succeeds_quietly env e r s' :
  EClient_init env [VRef (new_loc (st e)); VRef (new_loc (st e))] []
    (alloc "IBAPI" (st e)) = (Ok r, s') →
  ∃ e', construct env [] [] e = (Ok (VRef (new_loc (st e))), e')
        ∧ VRef (new_loc (st e)) ≠ VNone
        ∧ st e' = s'
        ∧ calls e' = calls e ++ [binding (new_loc (st e))]
        ∧ (∀ i ev l, calls e' !! i = Some ev → length (calls e) ≤ i →
                     ¬ is_request l ev)
        ∧ (init_disconnected env → io (st e') = io (st e)).
Proof.
  intros Hinit. eexists. split; [by apply (construct_ok env e r s') |].
  simpl. repeat split; [done | |].
  - intros i ev l Hi Hge. added_call Hi.
    injection Hi as <-. apply binding_not_request.
  - intros Hsilent. by destruct (Hsilent _ _ _ _ _ Hinit) as [_ ->].
Qed.

Lemma construct_succeeds_quietly_witness :
  EClient_init Sample.env [VRef 1%positive; VRef 1%positive] []
    (alloc "IBAPI" Sample.s0) = (Ok VNone, st Sample.e1)
  ∧ ∃ e', construct Sample.env [] [] Sample.e0 = (Ok (VRef 1%positive), e')
          ∧ VRef 1%positive ≠ VNone
          ∧ st e' = st Sample.e1
          ∧ calls e' = [binding 1%positive]
          ∧ (∀ i ev l, calls e' !! i = Some ev → 0 ≤ i → ¬ is_request l ev)
          ∧ (init_disconnected Sample.env → io (st e') = []).
Proof.
  split; [reflexivity |].
  apply (construct_succeeds_quietly Sample.env Sample.e0 VNone (st Sample.e1)).
  reflexivity.
Defined.



(** Claim C4 (never a request while unwired).  In every run of a caller,
    a method call on a connector (any call other than [__init__]) is
    preceded in the trace by the call [EClient.__init__(l, l)] that bound
    that connector as its own callback target. *)
Theorem requests_only_after_binding env c i ev l :
  reachable env c →
  calls (exec c) !! i = Some ev →
  is_request l ev →
  ∃ j, j < i ∧ calls (exec c) !! j = Some (binding l).
Proof.
  intros (s & acts & ->) Hi Hreq.
  destruct (run_inv env acts (start s) (start_inv s)) as [_ Hr].
  exact (Hr i ev l Hi Hreq).
Qed.

Lemma requests_only_after_binding_witness :
  reachable Sample.env Sample.session
  ∧ calls (exec Sample.session) !! 1
    = Some (EvCall "EClient" "reqCurrentTime" [VRef 1%positive] [])
  ∧ is_request 1%positive (EvCall "EClient" "reqCurrentTime" [VRef 1%positive] [])
  ∧ ∃ j, j < 1 ∧ calls (exec Sample.session) !! j = Some (binding 1%positive).
Proof.
  assert (reachable Sample.env Sample.session) as Hreach.
  { exists Sample.s0. eexists. reflexivity. }
  assert (is_request 1%positive
            (EvCall "EClient" "reqCurrentTime" [VRef 1%positive] [])) as Hreq.
  { exists "EClient", "reqCurrentTime", [], []. split; [reflexivity | discriminate]. }
  split; [exact Hreach |]. split; [reflexivity |]. split; [exact Hreq |].
  apply (requests_only_after_binding Sample.env Sample.session 1
           (EvCall "EClient" "reqCurrentTime" [VRef 1%positive] []) 1%positive);
    [exact Hreach | reflexivity | exact Hreq].
Defined.

(** Claim C5 (errors pass through).  An exception raised by the library's
    initialiser during [IBAPI()] is the exception [IBAPI()] raises, in the
    state the initialiser left; an exception raised by a library method
    called on a connector is the exception the call raises, in the state
    the method left.  Nothing is caught and nothing is translated. *)
Theorem library_errors_propagate env e :
  (∀ x s',
     EClient_init env [VRef (new_loc (st e)); VRef (new_loc (st e))] []
       (alloc "IBAPI" (st e)) = (Err x, s') →
     (construct env [] [] e).1 = Err x ∧ st (construct env [] [] e).2 = s')
  ∧ (∀ l o n c g pos kw x s',
       heap (st e) !! l = Some o →
       o_class o = "IBAPI" →
       o_attrs o !! n = None →
       IBAPI_dict env !! n = None →
       lib_resolve env n = Some (c, LFun g) →
       g (VRef l :: pos) kw (st e) = (Err x, s') →
       (invoke (classes env) l n pos kw e).1 = Err x
       ∧ st (invoke (classes env) l n pos kw e).2 = s').
Proof.
  split.
  - intros x s' Hinit. by rewrite (construct_err env e x s' Hinit).
  - intros l o n c g pos kw x s' Hl Hc Ha Hown Hres Hg.
    rewrite (invoke_inherited env l o n c g pos kw e Hl Hc Ha Hown Hres).
    unfold call_lib. by rewrite Hg.
Qed.

Lemma library_errors_propagate_witness :
  (construct Sample.failing_env [] [] Sample.e0).1 = Err Sample.refused
  ∧ (invoke (classes Sample.env) 1%positive "connect" [] [] Sample.e1).1
    = Err (Raised "ConnectionRefusedError" [VInt 111]).
Proof.
  split.
  - apply (proj1 (library_errors_propagate Sample.failing_env Sample.e0)
             Sample.refused (alloc "IBAPI" Sample.s0)).
    reflexivity.
  - assert (is_Some (heap (st Sample.e1) !! 1%positive)) as [o Ho].
    { vm_compute. eauto. }
    apply (proj2 (library_errors_propagate Sample.env Sample.e1)
             1%positive o "connect" "EClient" Sample.connect [] []
             (Raised "ConnectionRefusedError" [VInt 111]) (st Sample.e1) Ho).
    + vm_compute in Ho. by injection Ho as <-.
    + vm_compute in Ho. injection Ho as <-. reflexivity.
    + reflexivity.
    + reflexivity.
    + reflexivity.
Defined.

(** Claim C6 (no parameters).  [def __init__(self)]: a call of [IBAPI]
    with no actuals runs the body of the constructor, and a call with any
    positional or keyword actual is rejected with a [TypeError] before
    the body runs, so construction cannot be varied by arguments. *)
Theorem construct_takes_no_arguments env e :
  calls (construct env [] [] e).2 = calls e ++ [binding (new_loc (st e))]
  ∧ ∀ pos kw, pos ≠ [] ∨ kw ≠ [] →
      ∃ why, construct env pos kw e
             = (Err (TypeError "IBAPI.__init__" why),
                MkExec (alloc "IBAPI" (st e)) (calls e)).
Proof.
  split; [| intros pos kw; apply construct_rejects].
  init_cases env e.
  - by rewrite (construct_ok env e _ _ Hinit).
  - by rewrite (construct_err env e _ _ Hinit).
Qed.

Lemma construct_takes_no_arguments_witness :
  (∃ why, (construct Sample.env [VInt 7497] [] Sample.e0).1
          = Err (TypeError "IBAPI.__init__" why))
  ∧ (∃ why, (construct Sample.env [] [("port", VInt 7497)] Sample.e0).1
            = Err (TypeError "IBAPI.__init__" why)).
Proof.
  split.
  - destruct (proj2 (construct_takes_no_arguments Sample.env Sample.e0)
                [VInt 7497] []) as [why Hw]; [left; discriminate |].
    exists why. by rewrite Hw.
  - destruct (proj2 (construct_takes_no_arguments Sample.env Sample.e0)
                [] [("port", VInt 7497)]) as [why Hw]; [right; discriminate |].
    exists why. by rewrite Hw.
Defined.

(** Claim C7 (nothing but construction is defined here).  The only
    function the class body binds is [__init__].  Any other name resolves
    on [IBAPI] to what the bases resolve it to (first [EWrapper], then
    [EClient], then [object]); a library function found this way is the
    very attribute the defining base class yields for that name; and
    calling it on a connector is running the library's function on the
    connector and the actuals, with the library's outcome and state. *)
Theorem methods_inherited_unchanged env :
  (∀ n f, IBAPI_dict env !! n = Some (AFun f) → n = "__init__")
  ∧ (∀ n, IBAPI_dict env !! n = None →
          class_lookup (classes env) "IBAPI" n
          = (λ ca, (ca.1, lift_attr ca.1 n ca.2)) <$> lib_resolve env n)
  ∧ (∀ n c g, IBAPI_dict env !! n = None →
              lib_resolve env n = Some (c, LFun g) →
              class_lookup (classes env) "IBAPI" n = class_lookup (lib_table env) c n)
  ∧ (∀ l o n c g pos kw e,
       heap (st e) !! l = Some o →
       o_class o = "IBAPI" →
       o_attrs o !! n = None →
       IBAPI_dict env !! n = None →
       lib_resolve env n = Some (c, LFun g) →
       invoke (classes env) l n pos kw e = call_lib c n g (VRef l :: pos) kw e).
Proof.
  split; [| split; [| split]].
  - intros n f Hf. by apply (IBAPI_dict_fun env) in Hf as [-> _].
  - apply class_lookup_inherited.
  - intros n c g Hown Hres. rewrite (class_lookup_inherited env n Hown), Hres.
    assert (n ≠ "__init__") as Hn.
    { intros ->. by rewrite (IBAPI_dict_init env) in Hown. }
    unfold lib_resolve in Hres.
    destruct (EWrapper_dict env !! n) as [a |] eqn:Hw.
    { injection Hres as <- ->. unfold class_lookup. simpl.
      by rewrite lift_dict_lookup, Hw. }
    destruct (EClient_dict env !! n) as [a |] eqn:Hc.
    { injection Hres as <- ->. unfold class_lookup. simpl.
      unfold EClient_namespace. rewrite lookup_insert_ne by done.
      by rewrite lift_dict_lookup, Hc. }
    destruct (object_dict env !! n) as [a |] eqn:Ho; simpl in Hres; [| done].
    injection Hres as <- ->. unfold class_lookup. simpl.
    by rewrite lift_dict_lookup, Ho.
  - apply invoke_inherited.
Qed.

Lemma methods_inherited_unchanged_witness :
  class_lookup (classes Sample.env) "IBAPI" "reqCurrentTime"
  = class_lookup (lib_table Sample.env) "EClient" "reqCurrentTime"
  ∧ invoke (classes Sample.env) 1%positive "reqCurrentTime" [] [] Sample.e1
    = call_lib "EClient" "reqCurrentTime" Sample.reqCurrentTime [VRef 1%positive] []
        Sample.e1.
Proof.
  destruct (methods_inherited_unchanged Sample.env) as (_ & _ & Hsame & Hcall).
  split.
  - apply (Hsame "reqCurrentTime" "EClient" Sample.reqCurrentTime); reflexivity.
  - assert (is_Some (heap (st Sample.e1) !! 1%positive)) as [o Ho].
    { vm_compute. eauto. }
    apply (Hcall 1%positive o "reqCurrentTime" "EClient" Sample.reqCurrentTime
             [] [] Sample.e1 Ho).
    + vm_compute in Ho. by injection Ho as <-.
    + vm_compute in Ho. injection Ho as <-. reflexivity.
    + reflexivity.
    + reflexivity.
Defined.

(** Claim C8 (only the requester half is initialised).  Whatever the
    namespace of [EWrapper] binds [__init__] to, or whether it binds it at
    all, makes no difference to the constructor; the only call the
    constructor adds to the trace is [EClient.__init__]; and the execution
    state it leaves is the one that single call leaves on the freshly
    allocated object. *)
Theorem only_EClient_is_initialised env pos kw e :
  (∀ d, (∀ n, n ≠ "__init__" → d !! n = EWrapper_dict env !! n) →
        construct (with_EWrapper d env) pos kw e = construct env pos kw e)
  ∧ (∀ i cls n p k,
       calls (construct env pos kw e).2 !! i = Some (EvCall cls n p k) →
       length (calls e) ≤ i →
       cls = "EClient" ∧ n = "__init__")
  ∧ (construct env [] [] e).2
    = (call_lib "EClient" "__init__" (EClient_init env)
         [VRef (new_loc (st e)); VRef (new_loc (st e))] []
         (MkExec (alloc "IBAPI" (st e)) (calls e))).2.
Proof.
  split; [| split].
  - intros d _. rewrite !construct_unfold. unfold bind.
    assert (∀ a x, IBAPI_init (with_EWrapper d env) a kw x = IBAPI_init env a kw x)
      as ->; [| done].
    intros a x. unfold IBAPI_init, def.
    destruct (bind_params "IBAPI.__init__" ["self"] a kw); [| done].
    by rewrite !lookup_EClient_init.
  - intros i cls n p k Hi Hge.
    destruct (construct_calls env pos kw e) as [Hc | Hc]; rewrite Hc in Hi.
    + apply lookup_lt_Some in Hi. lia.
    + added_call Hi. unfold binding in Hi. by injection Hi as <- <- _ _.
  - unfold call_lib. simpl. init_cases env e.
    + by rewrite (construct_ok env e _ _ Hinit).
    + by rewrite (construct_err env e _ _ Hinit).
Qed.

Lemma only_EClient_is_initialised_witness :
  construct (with_EWrapper (delete "__init__" (EWrapper_dict Sample.env)) Sample.env)
    [] [] Sample.e0
  = construct Sample.env [] [] Sample.e0.
Proof.
  apply (proj1 (only_EClient_is_initialised Sample.env [] [] Sample.e0)).
  intros n Hn. by apply lookup_delete_ne.
Defined.

(** On the sample, whose [EWrapper.__init__] would set [sink_ready]: the
    field is not there after construction. *)
Example sample_sink_not_initialised :
  Sample.field "sink_ready" (st Sample.e1) 1%positive = None
  ∧ Sample.field "wrapper" (st Sample.e1) 1%positive = Some (VRef 1%positive).
Proof. split; reflexivity. Qed.

(** ** Further properties of the class *)

Lemma bind_keywords_Err fn params kw : ∀ bound x,
  bind_keywords fn params bound kw = Err x → ∃ why, x = TypeError fn why.
Proof.
  induction kw as [| [k v] kw IH]; intros bound x; simpl; [done |].
  repeat case_decide; eauto; intros [= <-]; eauto.
Qed.

Lemma bind_params_Err fn params pos kw x :
  bind_params fn params pos kw = Err x → ∃ why, x = TypeError fn why.
Proof.
  unfold bind_params.
  destruct (bind_keywords fn params (zip params pos) kw) as [bound | y] eqn:Hk.
  - case_decide; [intros [= <-]; eauto |].
    destruct (List.find _ params); [intros [= <-]; eauto | done].
  - intros [= <-]. by eapply bind_keywords_Err.
Qed.

(** The two ways of passing the only parameter of [def __init__(self)]. *)
Lemma bind_self_Ok_any fn pos kw locals :
  bind_params fn ["self"] pos kw = Ok locals →
  ∃ v, locals = [("self", v)]
       ∧ ((pos = [v] ∧ kw = []) ∨ (pos = [] ∧ kw = [("self", v)])).
Proof.
  destruct pos as [| v pos].
  - unfold bind_params. destruct kw as [| [k x] kw]; simpl; [done |].
    destruct (decide (k ∈ ["self"])) as [Hin | Hout]; [| done].
    apply list_elem_of_singleton in Hin as ->.
    destruct kw as [| [k2 x2] kw]; simpl.
    + intros [= <-]. eauto.
    + by destruct (decide (k2 ∈ ["self"])).
  - intros H. apply bind_self_Ok in H as (-> & -> & ->). eauto.
Qed.

(** Property X1 (the whole behaviour of [IBAPI.__init__]).  However the
    function is called, one of two things happens.  Either the actuals
    bind its only parameter, positionally or as the keyword [self]; then
    it calls [EClient.__init__] once, with the value of [self] as
    instance and as wrapper, returns [None] whatever that call returned,
    lets an exception of that call through, and leaves the state that
    call left.  Or it raises a [TypeError], the library is not called and
    nothing changes. *)
Theorem IBAPI_init_total env pos kw e :
  (∃ v, ((pos = [v] ∧ kw = []) ∨ (pos = [] ∧ kw = [("self", v)]))
        ∧ IBAPI_init env pos kw e
          = (match (EClient_init env [v; v] [] (st e)).1 with
             | Ok _ => Ok VNone
             | Err x => Err x
             end,
             MkExec (EClient_init env [v; v] [] (st e)).2
                    (calls e ++ [EvCall "EClient" "__init__" [v; v] []])))
  ∨ (∃ why, IBAPI_init env pos kw e = (Err (TypeError "IBAPI.__init__" why), e)).
Proof.
  unfold IBAPI_init, def.
  destruct (bind_params "IBAPI.__init__" ["self"] pos kw) as [locals | x] eqn:Hb.
  - left. apply bind_self_Ok_any in Hb as (v & -> & Hshape).
    exists v. split; [done |]. simpl. rewrite lookup_EClient_init.
    unfold bind, call_attr, call_lib, ret.
    by destruct (EClient_init env [v; v] [] (st e)) as [[r | x] s'].
  - right. apply bind_params_Err in Hb as [why ->]. eauto.
Qed.

Lemma IBAPI_init_total_witness :
  (IBAPI_init Sample.env [] [("self", VRef 1%positive)] Sample.e1).1 = Ok VNone
  ∧ ∃ why, (IBAPI_init Sample.env [] [] Sample.e1).1
           = Err (TypeError "IBAPI.__init__" why).
Proof.
  split.
  - destruct (IBAPI_init_total Sample.env [] [("self", VRef 1%positive)] Sample.e1)
      as [(v & [[Hp _] | [_ Hk]] & ->) | (why & Hw)].
    + discriminate Hp.
    + injection Hk as <-. reflexivity.
    + vm_compute in Hw. discriminate Hw.
  - destruct (IBAPI_init_total Sample.env [] [] Sample.e1)
      as [(v & [[Hp _] | [_ Hk]] & _) | (why & ->)].
    + discriminate Hp.
    + discriminate Hk.
    + eauto.
Defined.

(** Property X2 (initialising again).  On a connector whose [__dict__]
    does not bind [__init__], the call [c.__init__()] reaches the
    [__init__] of [IBAPI], although [EWrapper] comes before [EClient]
    among the bases and both may define one: it calls
    [EClient.__init__(c, c)] once more and returns [None] or that call's
    exception.  With any actual it raises a [TypeError] and changes
    nothing.  The initialiser registering its second argument, the
    connector is again its own callback target afterwards. *)
Theorem reinitialise_binds_self env l o e :
  heap (st e) !! l = Some o →
  o_class o = "IBAPI" →
  o_attrs o !! "__init__" = None →
  invoke (classes env) l "__init__" [] [] e
  = (match (EClient_init env [VRef l; VRef l] [] (st e)).1 with
     | Ok _ => Ok VNone
     | Err x => Err x
     end,
     MkExec (EClient_init env [VRef l; VRef l] [] (st e)).2
            (calls e ++ [binding l]))
  ∧ (∀ pos kw, pos ≠ [] ∨ kw ≠ [] →
       ∃ why, invoke (classes env) l "__init__" pos kw e
              = (Err (TypeError "IBAPI.__init__" why), e))
  ∧ (binds_target env →
     ∀ r e', invoke (classes env) l "__init__" [] [] e = (Ok r, e') →
             r = VNone ∧ callback_target env (st e') l = Some (VRef l)).
Proof.
  intros Hl Hc Ha.
  assert (∀ pos kw, invoke (classes env) l "__init__" pos kw e
                    = IBAPI_init env (VRef l :: pos) kw e) as Hinv.
  { intros pos kw. unfold invoke. rewrite Hl, Ha, Hc.
    by rewrite lookup_IBAPI_init. }
  assert (invoke (classes env) l "__init__" [] [] e
          = (match (EClient_init env [VRef l; VRef l] [] (st e)).1 with
             | Ok _ => Ok VNone
             | Err x => Err x
             end,
             MkExec (EClient_init env [VRef l; VRef l] [] (st e)).2
                    (calls e ++ [binding l]))) as Hrun.
  { rewrite Hinv, IBAPI_init_body. unfold bind, call_lib, ret, binding.
    by destruct (EClient_init env [VRef l; VRef l] [] (st e)) as [[r | x] s']. }
  split; [exact Hrun |]. split.
  - intros pos kw Hne. rewrite Hinv. by apply IBAPI_init_rejects.
  - intros Hbind r e'. rewrite Hrun.
    destruct (EClient_init env [VRef l; VRef l] [] (st e)) as [[r0 | x] s'] eqn:Hinit;
      simpl; [| done].
    intros [= <- <-]. split; [done |]. simpl. by eapply Hbind.
Qed.

Lemma reinitialise_binds_self_witness :
  (invoke (classes Sample.env) 1%positive "__init__" [] [] Sample.e1).1 = Ok VNone
  ∧ calls (invoke (classes Sample.env) 1%positive "__init__" [] [] Sample.e1).2
    = [binding 1%positive; binding 1%positive].
Proof.
  assert (is_Some (heap (st Sample.e1) !! 1%positive)) as [o Ho].
  { vm_compute. eauto. }
  assert (o_class o = "IBAPI") as Hc.
  { vm_compute in Ho. by injection Ho as <-. }
  assert (o_attrs o !! "__init__" = None) as Ha.
  { vm_compute in Ho. injection Ho as <-. reflexivity. }
  destruct (reinitialise_binds_self Sample.env 1%positive o Sample.e1 Ho Hc Ha)
    as (-> & _ & _).
  split; reflexivity.
Defined.

(** Property X3 (the order of the bases decides a clash).  For a name the
    class body does not bind: if [EWrapper] binds it, attribute lookup on
    [IBAPI] yields the binding of [EWrapper], also when [EClient] binds
    the name too; the binding of [EClient] is reached only when [EWrapper]
    has none.  A call of such a name on a connector therefore runs the
    function of [EWrapper]. *)
Theorem base_order_decides_clash env n :
  IBAPI_dict env !! n = None →
  (∀ a, EWrapper_dict env !! n = Some a →
        class_lookup (classes env) "IBAPI" n
        = Some ("EWrapper", lift_attr "EWrapper" n a))
  ∧ (∀ a, EWrapper_dict env !! n = None →
          EClient_dict env !! n = Some a →
          class_lookup (classes env) "IBAPI" n
          = Some ("EClient", lift_attr "EClient" n a))
  ∧ (∀ g l o pos kw e,
       EWrapper_dict env !! n = Some (LFun g) →
       heap (st e) !! l = Some o →
       o_class o = "IBAPI" →
       o_attrs o !! n = None →
       invoke (classes env) l n pos kw e
       = call_lib "EWrapper" n g (VRef l :: pos) kw e).
Proof.
  intros Hown. split; [| split].
  - intros a Hw. rewrite (class_lookup_inherited env n Hown).
    unfold lib_resolve. by rewrite Hw.
  - intros a Hw Hc. rewrite (class_lookup_inherited env n Hown).
    unfold lib_resolve. by rewrite Hw, Hc.
  - intros g l o pos kw e Hw Hl Hc Ha.
    apply (invoke_inherited env l o n "EWrapper" g pos kw e Hl Hc Ha Hown).
    unfold lib_resolve. by rewrite Hw.
Qed.

Lemma base_order_decides_clash_witness :
  EWrapper_dict Sample.clash_env !! "error" = Some (LFun Sample.currentTime)
  ∧ EClient_dict Sample.clash_env !! "error" = Some (LFun Sample.connect)
  ∧ class_lookup (classes Sample.clash_env) "IBAPI" "error"
    = Some ("EWrapper", lift_attr "EWrapper" "error" (LFun Sample.currentTime)).
Proof.
  split; [reflexivity |]. split; [reflexivity |].
  apply (proj1 (base_order_decides_clash Sample.clash_env "error" eq_refl)).
  reflexivity.
Defined.

(** Property X5 (which [TypeError]).  A call of [IBAPI] with actuals fails
    in argument binding, keywords first: the first keyword decides, as a
    second value for [self] when it is [self] and as an unexpected
    keyword otherwise; without keywords, the positional actuals are too
    many, counted with the instance.  In each case the state is the
    caller's plus the object that was allocated, and the trace is the
    caller's. *)
Theorem construct_arity_errors env pos kw e :
  (∀ k x kw', kw = (k, x) :: kw' →
     construct env pos kw e
     = (Err (TypeError "IBAPI.__init__"
               (if decide (k = "self") then MultipleValues k
                else UnexpectedKeyword k)),
        MkExec (alloc "IBAPI" (st e)) (calls e)))
  ∧ (kw = [] → pos ≠ [] →
     construct env pos kw e
     = (Err (TypeError "IBAPI.__init__" (TooManyPositional (S (length pos)))),
        MkExec (alloc "IBAPI" (st e)) (calls e))).
Proof.
  split.
  - intros k x kw' ->. rewrite construct_unfold. unfold bind, IBAPI_init, def.
    by rewrite bind_self.
  - intros -> Hpos. rewrite construct_unfold. unfold bind, IBAPI_init, def.
    rewrite bind_self. by destruct pos.
Qed.

Lemma construct_arity_errors_witness :
  (construct Sample.env [VStr "127.0.0.1"; VInt 7497] [] Sample.e0).1
  = Err (TypeError "IBAPI.__init__" (TooManyPositional 3))
  ∧ (construct Sample.env [VInt 1] [("clientId", VInt 0)] Sample.e0).1
    = Err (TypeError "IBAPI.__init__" (UnexpectedKeyword "clientId"))
  ∧ (construct Sample.env [] [("self", VNone)] Sample.e0).1
    = Err (TypeError "IBAPI.__init__" (MultipleValues "self")).
Proof.
  split; [| split].
  - by rewrite (proj2 (construct_arity_errors Sample.env
                         [VStr "127.0.0.1"; VInt 7497] [] Sample.e0) eq_refl).
  - by rewrite (proj1 (construct_arity_errors Sample.env [VInt 1]
                         [("clientId", VInt 0)] Sample.e0)
                  "clientId" (VInt 0) [] eq_refl).
  - by rewrite (proj1 (construct_arity_errors Sample.env []
                         [("self", VNone)] Sample.e0)
                  "self" VNone [] eq_refl).
Defined.

(** Property X6 (no unwired connector is handed out).  In every run of a
    caller, each connector the caller holds was passed to
    [EClient.__init__] as instance and as wrapper, and that call is in the
    trace. *)
Theorem held_instances_are_bound env c l :
  reachable env c →
  l ∈ handles c →
  ∃ j, calls (exec c) !! j = Some (binding l).
Proof.
  intros (s & acts & ->) Hl.
  destruct (run_inv env acts (start s) (start_inv s)) as [Hh _].
  destruct (Hh l Hl) as (j & _ & Hj). eauto.
Qed.

Lemma held_instances_are_bound_witness :
  reachable Sample.env Sample.session
  ∧ 1%positive ∈ handles Sample.session
  ∧ ∃ j, calls (exec Sample.session) !! j = Some (binding 1%positive).
Proof.
  assert (reachable Sample.env Sample.session) as Hreach.
  { exists Sample.s0. eexists. reflexivity. }
  assert (1%positive ∈ handles Sample.session) as Hin.
  { vm_compute. apply list_elem_of_here. }
  split; [exact Hreach |]. split; [exact Hin |].
  exact (held_instances_are_bound Sample.env Sample.session 1%positive Hreach Hin).
Defined.
